(** * Booking engine of nordic_wellness_booker (src/main.rs)

    A shallow embedding of the slot search ([find_activity_by_name]),
    the retry loop ([run_booking]), the wait computation, the runner
    tasks spawned by [main], and the requests sent to the provider
    ([book_activity], [get_nw_date], [get_bookings_url]).

    Rust's three ways for a computation to end are kept apart in the type
    [outcome]: [Ok] (a value), [Err] (an [eyre::Error] propagated with [?]
    or returned) and [Panic] (an [unwrap]/[expect] on [None]/[Err]).

    The library functions whose semantics is not part of this repository
    (chrono's [NaiveDateTime::parse_from_str], the [cron] crate's parser and
    [cron_descriptor]) are section variables: every theorem below holds for
    any implementation of them. *)

From Stdlib Require Import String Ascii ZArith.
From stdpp Require Import base list relations.

Open Scope string_scope.
Open Scope Z_scope.

(** ** Outcomes of a Rust computation *)

Inductive outcome (A : Type) : Type :=
| Ok (a : A)
| Err (e : string)
| Panic (msg : string).
Arguments Ok {A} a.
Arguments Err {A} e.
Arguments Panic {A} msg.

Definition bind {A B} (m : outcome A) (k : A -> outcome B) : outcome B :=
  match m with
  | Ok a => k a
  | Err e => Err e
  | Panic msg => Panic msg
  end.

(** Rust's [?] and the sequencing of statements. *)
Notation "x <- m ;; k" := (bind m (fun x => k))
  (at level 100, m at next level, right associativity).

(** [Option::unwrap] *)
Definition unwrap {A} (o : option A) : outcome A :=
  match o with
  | Some a => Ok a
  | None => Panic "called `Option::unwrap()` on a `None` value"
  end.

(** ** Data model *)

Inductive Weekday := Mon | Tue | Wed | Thu | Fri | Sat | Sun.

Definition weekday_eqb (a b : Weekday) : bool :=
  match a, b with
  | Mon, Mon | Tue, Tue | Wed, Wed | Thu, Thu
  | Fri, Fri | Sat, Sat | Sun, Sun => true
  | _, _ => false
  end.

(** chrono's [NaiveDateTime], as the fields it is built from. *)
Record NaiveDateTime := {
  dt_year : Z; dt_month : Z; dt_day : Z;
  dt_hour : Z; dt_minute : Z; dt_second : Z
}.

(** [Datelike::weekday] on the proleptic Gregorian calendar. *)
Definition weekday (d : NaiveDateTime) : Weekday :=
  let m := dt_month d in
  let y := if m <? 3 then dt_year d - 1 else dt_year d in
  let t := nth (Z.to_nat (m - 1)) [0; 3; 2; 5; 0; 3; 5; 1; 4; 6; 2; 4] 0 in
  match (y + y / 4 - y / 100 + y / 400 + t + dt_day d) mod 7 with
  | 0 => Sun | 1 => Mon | 2 => Tue | 3 => Wed | 4 => Thu | 5 => Fri | _ => Sat
  end.

Record GroupActivity := {
  ga_id : Z;
  ga_name : string;
  ga_image_url : option string;
  ga_description : option string;
  ga_message : option string;
  ga_status : string;
  ga_start_time : string;
  ga_end_time : string;
  ga_location : string;
  ga_instructor : string;
  ga_instructor_id : Z;
  ga_free_slots : Z;
  ga_dropin : Z;
  ga_drops_amount : Z;
  ga_booking_id : option string
}.

Record BookableActivity := {
  name : string;
  id : string;
  cron_time : string;
  user_id : Z;
  day : string;
  user_name : string
}.

(** ** Strings *)

(** [str::to_lowercase], on the ASCII letters (the configuration and the
    provider's names are ASCII in this model). *)
Definition lower_ascii (c : ascii) : ascii :=
  let n := nat_of_ascii c in
  if (65 <=? n)%nat && (n <=? 90)%nat then ascii_of_nat (n + 32) else c.

Fixpoint to_lowercase (s : string) : string :=
  match s with
  | EmptyString => EmptyString
  | String c r => String (lower_ascii c) (to_lowercase r)
  end.

(** [str::contains] with a string pattern: a substring test. *)
Fixpoint contains (hay needle : string) : bool :=
  String.prefix needle hay ||
  match hay with
  | EmptyString => false
  | String _ r => contains r needle
  end.

Definition parse_weekday (value : string) : option Weekday :=
  match to_lowercase value with
  | "sun" | "sunday" => Some Sun
  | "mon" | "monday" => Some Mon
  | "tue" | "tuesday" => Some Tue
  | "wed" | "wednesday" => Some Wed
  | "thu" | "thursday" => Some Thu
  | "fri" | "friday" => Some Fri
  | "sat" | "saturday" => Some Sat
  | _ => None
  end%string.

(** [StatusCode::as_str]: the three decimal digits of the code. *)
Definition digit (n : Z) : ascii := ascii_of_nat (48 + Z.to_nat n).

Definition status_as_str (s : Z) : string :=
  String (digit ((s / 100) mod 10))
    (String (digit ((s / 10) mod 10)) (String (digit (s mod 10)) EmptyString)).

(** [Iterator::find] with a predicate that may panic. *)
Fixpoint find_m {A} (p : A -> outcome bool) (l : list A) : outcome (option A) :=
  match l with
  | [] => Ok None
  | x :: r => b <- p x ;; if b then Ok (Some x) else find_m p r
  end.

(** [as u32] on an [i64]. *)
Definition wrap_u32 (x : Z) : Z := x mod 2 ^ 32.

(** A reqwest response: its status and the result of [text().await]. *)
Record Response := {
  resp_status : Z;
  resp_text : outcome string
}.

(** What the network answers during one call of [find_activity_by_name]:
    the listing (the result of [reqwest::get], [text] and
    [serde_json::from_str]; an [Err] when any of them fails) and the answer
    of [book_activity] for an activity id and a user id (an [Err] on a
    transport failure). *)
Record AttemptEnv := {
  env_listing : outcome (list GroupActivity);
  env_book : Z -> Z -> outcome Response
}.

(** [Result::unwrap] *)
Definition unwrap_result {A} (r : outcome A) : outcome A :=
  match r with
  | Ok a => Ok a
  | Err e => Panic ("called `Result::unwrap()` on an `Err` value: " ++ e)
  | Panic m => Panic m
  end.

(** ** Durations

    A chrono [Duration] is kept as its number of nanoseconds. *)

Definition nanos_per_sec : Z := 1000000000.

(** [Duration::num_seconds]: whole seconds, truncated toward zero. *)
Definition num_seconds (d : Z) : Z := Z.quot d nanos_per_sec.

(** [Duration::to_std]: refused for a negative duration. *)
Definition to_std (d : Z) : outcome Z :=
  if d <? 0 then Err "OutOfRangeError" else Ok d.

(** [as u64] on an [i64]. *)
Definition wrap_u64 (x : Z) : Z := x mod 2 ^ 64.

(** The start of the loop body of the runner, from [wait_time] to the
    sleep (main.rs lines 223-230): the number of seconds slept, or the
    panic of [wait_time.to_std().unwrap()]. *)
Definition wait_step (wait_time : Z) : outcome Z :=
  let sleep_sec := wrap_u64 (num_seconds wait_time) in
  _ <- unwrap_result (to_std wait_time) ;;
  Ok sleep_sec.

(** [Duration::days(365)] in seconds: the sleep of the blocking task of
    [main]. *)
Definition main_sleep_secs : Z := 365 * 24 * 3600.

(** The largest chrono [Duration]: [i64::MAX] milliseconds. *)
Definition chrono_max_nanos : Z := (2 ^ 63 - 1) * 1000000.

Section Engine.

(** [NaiveDateTime::parse_from_str(s, "%Y-%m-%dT%H:%M:%S")], as the
    [Option] that [parse_date] makes of it. *)
Variable parse_date : string -> option NaiveDateTime.
(** The [cron] crate: [Schedule] and [Schedule::from_str(..).ok()]. *)
Variable Schedule : Type.
Variable schedule_from_str : string -> option Schedule.
(** [cron_descriptor]'s [get_description_cron(..).ok()]. *)
Variable get_description_cron : string -> option string.

(** The closure given to [find] in [find_activity_by_name]. *)
Definition activity_matches (activity : BookableActivity) (it : GroupActivity)
    : outcome bool :=
  let same_name := contains (to_lowercase (ga_name it)) (to_lowercase (name activity)) in
  start <- unwrap (parse_date (ga_start_time it)) ;;
  wd <- unwrap (parse_weekday (day activity)) ;;
  let correct_day := weekday_eqb (weekday start) wd in
  let correct_status := String.eqb (ga_status it) "Bookable" in
  Ok (same_name && correct_day && correct_status).

(** [find_activity_by_name], one attempt of the retry loop.  The logging
    of the listing when nothing matches serialises a [BookingsDto], which
    cannot fail. *)
Definition find_activity_by_name (activity : BookableActivity) (env : AttemptEnv)
    : outcome unit :=
  group_activities <- env_listing env ;;
  body_balance_activity <- find_m (activity_matches activity) group_activities ;;
  match body_balance_activity with
  | None => Ok tt
  | Some nw_activity =>
      response <- env_book env (wrap_u32 (ga_id nw_activity)) (user_id activity) ;;
      let status := resp_status response in
      text <- resp_text response ;;
      if negb (status =? 200)
      then Err ("code " ++ status_as_str status ++ ": " ++ text)%string
      else Ok tt
  end.

(** [run_booking activity num_retries]; [env k] is what the network
    answers during the [k]-th call of [find_activity_by_name] (counted from
    [k0]).  The result also counts the calls made. *)
Fixpoint run_booking (activity : BookableActivity) (num_retries : nat)
    (env : nat -> AttemptEnv) (k : nat) : outcome unit * nat :=
  match num_retries with
  | O => (Err (name activity), O)
  | S n =>
      match find_activity_by_name activity (env k) with
      | Ok _ => (Ok tt, 1%nat)
      | Err _ =>
          let '(r, c) := run_booking activity n env (S k) in (r, S c)
      | Panic m => (Panic m, 1%nat)
      end
  end.

(** ** The runner tasks spawned by [main] *)

Inductive task :=
| TInit (a : BookableActivity)
(** waiting for the [n]-th upcoming instant of its schedule *)
| TWaiting (a : BookableActivity) (s : Schedule) (n : nat)
(** the [for] loop ended: the schedule has no further instant *)
| TDone
(** the task panicked *)
| TDead (msg : string).

(** The statements before the [for] loop of the spawned block. *)
Definition runner_start (activity : BookableActivity) : task :=
  match schedule_from_str (cron_time activity) with
  | None => TDead ("unable to parse cron expression " ++ cron_time activity)
  | Some schedule =>
      match get_description_cron (cron_time activity) with
      | None => TDead "unable to get readable cron expression"
      | Some _ => TWaiting activity schedule 0
      end
  end.

(** One iteration of the [for] loop: [next] is [next_time - now] for the
    next upcoming instant ([None] when the iterator is exhausted), [env]
    what the network answers during [run_booking(activity, 3)]. *)
Definition runner_iter (activity : BookableActivity) (s : Schedule) (n : nat)
    (next : option Z) (env : nat -> AttemptEnv) : task :=
  match next with
  | None => TDone
  | Some wait_time =>
      match wait_step wait_time with
      | Panic m | Err m => TDead m
      | Ok _ =>
          match fst (run_booking activity 3 env 0) with
          | Ok _ => TWaiting activity s (S n)
          | Err e => TDead ("Unable to book!: " ++ e)
          | Panic m => TDead m
          end
      end
  end.

Inductive task_step : task -> task -> Prop :=
| step_start a : task_step (TInit a) (runner_start a)
| step_iter a s n next env : task_step (TWaiting a s n) (runner_iter a s n next env).

(** The tasks spawned by [main], one per configured activity. *)
Definition spawn_runners (acts : list BookableActivity) : list task :=
  map TInit acts.

(** The runtime runs any one task for one step; a panicking task is
    caught by tokio and only ends that task. *)
Definition sup_step (ts ts' : list task) : Prop :=
  exists i t t', ts !! i = Some t /\ task_step t t' /\ ts' = <[i:=t']> ts.

(** The process: the seconds elapsed since [main] started its blocking
    sleep, and the tasks; [PExited exit_time] once [main] has returned, [exit_time]
    seconds after it started to sleep. *)
Inductive process :=
| PRunning (elapsed : Z) (ts : list task)
| PExited (exit_time : Z).

Inductive proc_step : process -> process -> Prop :=
| ps_runner e ts ts' : sup_step ts ts' -> proc_step (PRunning e ts) (PRunning e ts')
| ps_tick e ts dt : 0 < dt ->
    proc_step (PRunning e ts)
      (if main_sleep_secs <=? e + dt then PExited main_sleep_secs
       else PRunning (e + dt) ts).

Definition main_start (acts : list BookableActivity) : process :=
  PRunning 0 (spawn_runners acts).

(** What holds of every state of the process: while it runs, [main] has
    slept less than 365 days; once it has exited, it did so at the end of
    the 365 days. *)
Definition proc_inv (p : process) : Prop :=
  match p with
  | PRunning e _ => 0 <= e < main_sleep_secs
  | PExited t => t = main_sleep_secs
  end.

End Engine.

Arguments TInit {Schedule} a.
Arguments TWaiting {Schedule} a s n.
Arguments TDone {Schedule}.
Arguments TDead {Schedule} msg.
Arguments PRunning {Schedule} elapsed ts.
Arguments PExited {Schedule} exit_time.
Arguments runner_iter parse_date {Schedule} activity s n next env.
Arguments spawn_runners {Schedule} acts.
Arguments runner_start {Schedule} schedule_from_str get_description_cron activity.
Arguments task_step parse_date {Schedule} schedule_from_str get_description_cron _ _.
Arguments sup_step parse_date {Schedule} schedule_from_str get_description_cron ts ts'.
Arguments proc_step parse_date {Schedule} schedule_from_str get_description_cron _ _.
Arguments main_start {Schedule} acts.
Arguments proc_inv {Schedule} p.

(** ** Concrete instances of the library functions, for examples

    [iso_parse_date] reads the fixed-width form [YYYY-MM-DDTHH:MM:SS] of
    the format "%Y-%m-%dT%H:%M:%S" (chrono's parser accepts more, e.g. a
    one-digit month); the cron parser is replaced by a table. *)

Fixpoint digits_val (s : string) (acc : Z) : option Z :=
  match s with
  | EmptyString => Some acc
  | String c r =>
      let n := nat_of_ascii c in
      if (48 <=? n)%nat && (n <=? 57)%nat
      then digits_val r (acc * 10 + Z.of_nat (n - 48))
      else None
  end.

Definition char_at (i : nat) (s : string) : option ascii := String.get i s.

Definition leap_year (y : Z) : bool :=
  (y mod 4 =? 0) && negb (y mod 100 =? 0) || (y mod 400 =? 0).

Definition days_in_month (y m : Z) : Z :=
  if m =? 2 then (if leap_year y then 29 else 28)
  else if (m =? 4) || (m =? 6) || (m =? 9) || (m =? 11) then 30 else 31.

Definition iso_parse_date (s : string) : option NaiveDateTime :=
  if negb (String.length s =? 19)%nat then None else
  match char_at 4 s, char_at 7 s, char_at 10 s, char_at 13 s, char_at 16 s,
        digits_val (substring 0 4 s) 0, digits_val (substring 5 2 s) 0,
        digits_val (substring 8 2 s) 0, digits_val (substring 11 2 s) 0,
        digits_val (substring 14 2 s) 0, digits_val (substring 17 2 s) 0 with
  | Some "-"%char, Some "-"%char, Some "T"%char, Some ":"%char, Some ":"%char,
    Some y, Some mo, Some d, Some h, Some mi, Some se =>
      if (1 <=? mo) && (mo <=? 12) && (1 <=? d) && (d <=? days_in_month y mo)
         && (h <? 24) && (mi <? 60) && (se <? 60)
      then Some {| dt_year := y; dt_month := mo; dt_day := d;
                   dt_hour := h; dt_minute := mi; dt_second := se |}
      else None
  | _, _, _, _, _, _, _, _, _, _, _ => None
  end.

(** A cron table: every expression but "bad" parses. *)
Definition table_cron (s : string) : option unit :=
  if String.eqb s "bad" then None else Some tt.

Definition table_description (s : string) : option string := Some s.

Definition yoga : BookableActivity := {|
  name := "Yoga"; id := ""; cron_time := "0 0 8 * * Mon";
  user_id := 42; day := "Monday"; user_name := "user"
|}.

Definition slot (i : Z) (nm status start : string) : GroupActivity := {|
  ga_id := i; ga_name := nm; ga_image_url := None; ga_description := None;
  ga_message := None; ga_status := status; ga_start_time := start;
  ga_end_time := start; ga_location := "Gym"; ga_instructor := "Coach";
  ga_instructor_id := 1; ga_free_slots := 10; ga_dropin := 0;
  ga_drops_amount := 0; ga_booking_id := None
|}.

(** 2024-01-08 is a Monday, 2024-01-09 a Tuesday. *)
Definition yoga_flow_mon : GroupActivity :=
  slot 7 "Yoga Flow" "Bookable" "2024-01-08T18:00:00".
Definition yoga_tue : GroupActivity :=
  slot 8 "Yoga Flow" "Bookable" "2024-01-09T18:00:00".

Definition ok_response : outcome Response :=
  Ok {| resp_status := 200; resp_text := Ok "booked" |}.

Definition env_of (l : list GroupActivity) (r : outcome Response) : AttemptEnv :=
  {| env_listing := Ok l; env_book := fun _ _ => r |}.

Definition env_refused : AttemptEnv := {|
  env_listing := Err "error sending request: connection refused";
  env_book := fun _ _ => Err "error sending request: connection refused"
|}.

Definition yoga_flow_mon_late : GroupActivity :=
  slot 9 "Yoga Flow" "Bookable" "2024-01-08T19:00:00".
Definition garbled_slot : GroupActivity :=
  slot 5 "Yoga Flow" "Bookable" "08/01/2024 18:00".

Definition bad_cron_yoga : BookableActivity := {|
  name := "Yoga"; id := ""; cron_time := "bad";
  user_id := 43; day := "Monday"; user_name := "other"
|}.

(** Scenario B of the spec: no Monday "Yoga" on the first two searches, a
    Bookable one on the third, booked with status 200. *)
Definition env_scenario_b (k : nat) : AttemptEnv :=
  if (k <? 2)%nat then env_of [yoga_tue] ok_response
  else env_of [yoga_flow_mon] ok_response.

(** Two refused connections, then a Bookable "Yoga Flow" booked with 200. *)
Definition env_retry (k : nat) : AttemptEnv :=
  if (k <? 2)%nat then env_refused else env_of [yoga_flow_mon] ok_response.

Definition already_booked : Response :=
  {| resp_status := 400; resp_text := Ok "Already booked" |}.

(** ** The requests sent to the provider *)

(** [u32]'s [Display]: the decimal digits, without leading zeros (a [u32]
    has at most ten). *)
Fixpoint dec_aux (fuel : nat) (n : Z) (acc : string) : string :=
  match fuel with
  | O => acc
  | S f =>
      if n <? 10 then String (digit n) acc
      else dec_aux f (n / 10) (String (digit (n mod 10)) acc)
  end.

Definition u32_to_string (n : Z) : string := dec_aux 10 n "".

(** [serde_urlencoded::to_string] of a sequence of pairs; the keys and
    values passed by [book_activity] are ASCII letters and digits, which
    the form encoding leaves as they are. *)
Fixpoint form_encode (pairs : list (string * string)) : string :=
  match pairs with
  | [] => ""
  | [(k, v)] => k ++ "=" ++ v
  | (k, v) :: r => k ++ "=" ++ v ++ "&" ++ form_encode r
  end.

Record Request := {
  req_method : string;
  req_url : string;
  req_content_type : string;
  req_body : string
}.

(** The request built by [book_activity]. *)
Definition book_activity (activity_id user_id : Z) : Request := {|
  req_method := "POST";
  req_url := "https://api1.nordicwellness.se/Booking";
  req_content_type := "application/x-www-form-urlencoded";
  req_body := form_encode [("ActivityId", u32_to_string activity_id);
                           ("UserId", u32_to_string user_id);
                           ("QueueType", "ordinary")]
|}.

(** ** Provider dates

    [Utc::now().naive_utc()] is kept as its number of seconds since
    1970-01-01T00:00:00. *)

(** The calendar date (year, month, day) of a day number counted from
    1970-01-01, in the proleptic Gregorian calendar. *)
Definition civil_from_days (z0 : Z) : Z * Z * Z :=
  let z := z0 + 719468 in
  let era := z / 146097 in
  let doe := z - era * 146097 in
  let yoe := (doe - doe / 1460 + doe / 36524 - doe / 146096) / 365 in
  let y := yoe + era * 400 in
  let doy := doe - (365 * yoe + yoe / 4 - yoe / 100) in
  let mp := (5 * doy + 2) / 153 in
  let d := doy - (153 * mp + 2) / 5 + 1 in
  let m := if mp <? 10 then mp + 3 else mp - 9 in
  (if m <=? 2 then y + 1 else y, m, d).

(** [n] in decimal, zero-padded to [w] digits. *)
Fixpoint pad (w : nat) (n : Z) : string :=
  match w with
  | O => ""
  | S w' => pad w' (n / 10) ++ String (digit (n mod 10)) ""
  end.

(** [format("%Y-%m-%d")] for the years 0 to 9999. *)
Definition format_ymd (ymd : Z * Z * Z) : string :=
  let '(y, m, d) := ymd in
  pad 4 y ++ "-" ++ pad 2 m ++ "-" ++ pad 2 d.

Definition secs_per_day : Z := 86400.

(** The day number of the UTC+2 date at the instant [t]. *)
Definition nw_day (t : Z) : Z := (t + 2 * 3600) / secs_per_day.

(** [get_nw_date]: [FixedOffset::east_opt(2 * 3600)], [from_utc_datetime],
    [date_naive], formatted. *)
Definition get_nw_date (t : Z) : string := format_ymd (civil_from_days (nw_day t)).

(** [chrono::Duration::weeks(1)] in seconds. *)
Definition one_week : Z := 7 * secs_per_day.

(** [get_bookings_url] at the instant [now]. *)
Definition get_bookings_url (now : Z) (user_id activity_id : string) : string :=
  let today := get_nw_date now in
  let in_one_week := get_nw_date (now + one_week) in
  "https://api1.nordicwellness.se/GroupActivity/timeslot?clubIds=1&activities="
  ++ activity_id ++ "&dates=" ++ today ++ "%2C" ++ in_one_week
  ++ "&time=&employees=&times=09%3A00-11%3A00%2C17%3A00-22%3A00&datespan=true&userId="
  ++ user_id.

(** * Properties *)

(** Arithmetic with divisions and remainders by constants. *)
Ltac zdiv := Z.div_mod_to_equations; lia.

Section Proofs.

Variable parse_date : string -> option NaiveDateTime.
Variable Schedule : Type.
Variable schedule_from_str : string -> option Schedule.
Variable get_description_cron : string -> option string.

(** ** The search *)

Lemma find_m_some {A} (p : A -> outcome bool) (l : list A) (x : A) :
  find_m p l = Ok (Some x) -> p x = Ok true /\ In x l.
Proof.
  induction l as [|y r IH]; simpl; [discriminate|].
  destruct (p y) as [[]| |] eqn:Hy; simpl; try discriminate.
  - intros [= <-]. auto.
  - intros H. destruct (IH H). auto.
Qed.

Lemma find_m_skip {A} (p : A -> outcome bool) (l1 l2 : list A) :
  Forall (fun y => p y = Ok false) l1 -> find_m p (l1 ++ l2)%list = find_m p l2.
Proof.
  induction 1 as [|y r Hy _ IH]; simpl; [reflexivity|].
  rewrite Hy. exact IH.
Qed.

Lemma activity_matches_true (activity : BookableActivity) (it : GroupActivity) :
  activity_matches parse_date activity it = Ok true <->
  contains (to_lowercase (ga_name it)) (to_lowercase (name activity)) = true /\
  (exists d w, parse_date (ga_start_time it) = Some d /\
     parse_weekday (day activity) = Some w /\ weekday d = w) /\
  ga_status it = "Bookable".
Proof.
  unfold activity_matches.
  destruct (parse_date (ga_start_time it)) as [d|]; simpl;
    [|split; [discriminate|intros (_ & (? & ? & [=] & _) & _)]].
  destruct (parse_weekday (day activity)) as [w|]; simpl;
    [|split; [discriminate|intros (_ & (? & ? & _ & [=] & _) & _)]].
  split.
  - intros [= H]. apply andb_prop in H as [H H3]. apply andb_prop in H as [H1 H2].
    apply String.eqb_eq in H3.
    repeat split; auto. exists d, w. repeat split.
    destruct (weekday d), w; simpl in H2; congruence.
  - intros (H1 & (d' & w' & [= <-] & [= <-] & H2) & H3).
    subst w. rewrite H1, H3. simpl. destruct (weekday d); reflexivity.
Qed.

(** ** The retry loop *)

Lemma run_booking_exhausted (activity : BookableActivity) (N : nat)
    (env : nat -> AttemptEnv) (k : nat) :
  (forall j, (j < N)%nat -> exists e,
      find_activity_by_name parse_date activity (env (k + j)%nat) = Err e) ->
  run_booking parse_date activity N env k = (Err (name activity), N).
Proof.
  revert k. induction N as [|N IH]; intros k Hfail; simpl; [reflexivity|].
  destruct (Hfail O ltac:(lia)) as [e He]. rewrite Nat.add_0_r in He.
  rewrite He, IH; [reflexivity|].
  intros j Hj. destruct (Hfail (S j) ltac:(lia)) as [e' He'].
  exists e'. rewrite <- He'. f_equal. f_equal. lia.
Qed.

Lemma run_booking_succeeds (activity : BookableActivity) (N m : nat)
    (env : nat -> AttemptEnv) (k : nat) :
  (m < N)%nat ->
  (forall j, (j < m)%nat -> exists e,
      find_activity_by_name parse_date activity (env (k + j)%nat) = Err e) ->
  find_activity_by_name parse_date activity (env (k + m)%nat) = Ok tt ->
  run_booking parse_date activity N env k = (Ok tt, S m).
Proof.
  revert N k. induction m as [|m IH]; intros N k Hm Hfail Hok.
  - destruct N as [|N]; [lia|]. simpl. rewrite Nat.add_0_r in Hok. now rewrite Hok.
  - destruct N as [|N]; [lia|]. simpl.
    destruct (Hfail O ltac:(lia)) as [e He]. rewrite Nat.add_0_r in He. rewrite He.
    rewrite (IH N (S k)); [reflexivity|lia| |].
    + intros j Hj. destruct (Hfail (S j) ltac:(lia)) as [e' He'].
      exists e'. rewrite <- He'. f_equal. f_equal. lia.
    + rewrite <- Hok. f_equal. f_equal. lia.
Qed.

(** C1: with [num_retries = N], if every call of [find_activity_by_name]
    fails, exactly [N] calls are made and the result is the error naming
    the activity; if the first success is the [k]-th call ([k <= N]),
    exactly [k] calls are made and the result is [Ok]. *)
Theorem run_booking_attempts (activity : BookableActivity) (N : nat)
    (env : nat -> AttemptEnv) :
  ((forall j, (j < N)%nat -> exists e,
       find_activity_by_name parse_date activity (env j) = Err e) ->
   run_booking parse_date activity N env 0 = (Err (name activity), N)) /\
  (forall k, (1 <= k <= N)%nat ->
   (forall j, (j < k - 1)%nat -> exists e,
       find_activity_by_name parse_date activity (env j) = Err e) ->
   find_activity_by_name parse_date activity (env (k - 1)%nat) = Ok tt ->
   run_booking parse_date activity N env 0 = (Ok tt, k)).
Proof.
  split.
  - intros H. apply run_booking_exhausted. exact H.
  - intros k Hk Hfail Hok.
    pose proof (run_booking_succeeds activity N (k - 1) env 0 ltac:(lia) Hfail Hok) as H.
    replace (S (k - 1)) with k in H by lia. exact H.
Qed.

(** C2 (as the code does it): a search in which no entry matches ends the
    call of [find_activity_by_name] with [Ok], so [run_booking] stops after
    that single call with [Ok] and does not retry. *)
Theorem run_booking_no_match_stops (activity : BookableActivity) (N : nat)
    (env : nat -> AttemptEnv) (k : nat) (l : list GroupActivity) :
  env_listing (env k) = Ok l ->
  find_m (activity_matches parse_date activity) l = Ok None ->
  find_activity_by_name parse_date activity (env k) = Ok tt /\
  run_booking parse_date activity (S N) env k = (Ok tt, 1%nat).
Proof.
  intros Hl Hf.
  assert (H : find_activity_by_name parse_date activity (env k) = Ok tt).
  { unfold find_activity_by_name. rewrite Hl. simpl. rewrite Hf. reflexivity. }
  split; [exact H|]. simpl. rewrite H. reflexivity.
Qed.

(** ** The reservation *)

Lemma digit_nat (n : Z) : 0 <= n <= 9 -> nat_of_ascii (digit n) = (48 + Z.to_nat n)%nat.
Proof.
  intros Hn. unfold digit. apply nat_ascii_embedding. lia.
Qed.

Lemma digit_inj (a b : Z) : 0 <= a <= 9 -> 0 <= b <= 9 -> digit a = digit b -> a = b.
Proof.
  intros Ha Hb H. apply (f_equal nat_of_ascii) in H.
  rewrite (digit_nat a Ha), (digit_nat b Hb) in H. lia.
Qed.

Lemma status_as_str_inj (s1 s2 : Z) :
  100 <= s1 <= 999 -> 100 <= s2 <= 999 -> status_as_str s1 = status_as_str s2 -> s1 = s2.
Proof.
  intros H1 H2 H. unfold status_as_str in H.
  injection H as Ha Hb Hc.
  apply digit_inj in Ha; [|zdiv..]. apply digit_inj in Hb; [|zdiv..].
  apply digit_inj in Hc; [|zdiv..]. zdiv.
Qed.

(** C3: once a slot is selected and the booking answer's body has been
    read, the call succeeds exactly when the status is 200; any other
    status gives an [Err] whose message is ["code <status>: <body>"],
    holding the whole body and the status, which can be read back from
    it. *)
Theorem booking_status_classified (activity : BookableActivity) (env : AttemptEnv)
    (l : list GroupActivity) (it : GroupActivity) (resp : Response) (body : string) :
  env_listing env = Ok l ->
  find_m (activity_matches parse_date activity) l = Ok (Some it) ->
  env_book env (wrap_u32 (ga_id it)) (user_id activity) = Ok resp ->
  resp_text resp = Ok body ->
  (find_activity_by_name parse_date activity env = Ok tt <-> resp_status resp = 200) /\
  (resp_status resp <> 200 ->
   find_activity_by_name parse_date activity env =
     Err ("code " ++ status_as_str (resp_status resp) ++ ": " ++ body)) /\
  (forall s, 100 <= s <= 999 -> 100 <= resp_status resp <= 999 ->
   status_as_str s = status_as_str (resp_status resp) -> s = resp_status resp).
Proof.
  intros Hl Hf Hb Ht.
  assert (E : find_activity_by_name parse_date activity env =
    if negb (resp_status resp =? 200)
    then Err ("code " ++ status_as_str (resp_status resp) ++ ": " ++ body)
    else Ok tt).
  { unfold find_activity_by_name. rewrite Hl. simpl. rewrite Hf. simpl.
    rewrite Hb. simpl. rewrite Ht. reflexivity. }
  rewrite E. split; [|split].
  - destruct (Z.eqb_spec (resp_status resp) 200); simpl; split; congruence.
  - intros Hne. apply Z.eqb_neq in Hne. rewrite Hne. reflexivity.
  - intros s Hs Hr Heq. exact (status_as_str_inj s _ Hs Hr Heq).
Qed.

(** ** The selection *)

Lemma activity_matches_not_err (activity : BookableActivity) (it : GroupActivity) (e : string) :
  activity_matches parse_date activity it <> Err e.
Proof.
  unfold activity_matches.
  destruct (parse_date (ga_start_time it)); simpl; [|discriminate].
  destruct (parse_weekday (day activity)); simpl; discriminate.
Qed.

(** C4: an entry selected by the search is in the listing, its name
    contains the configured name ignoring case, its start time parses to
    a date on the configured weekday, and its status is "Bookable". *)
Theorem selected_entry_matches_all (activity : BookableActivity)
    (l : list GroupActivity) (it : GroupActivity) :
  find_m (activity_matches parse_date activity) l = Ok (Some it) ->
  In it l /\
  contains (to_lowercase (ga_name it)) (to_lowercase (name activity)) = true /\
  (exists d w, parse_date (ga_start_time it) = Some d /\
     parse_weekday (day activity) = Some w /\ weekday d = w) /\
  ga_status it = "Bookable".
Proof.
  intros H. apply find_m_some in H as [Hm Hin].
  apply activity_matches_true in Hm. tauto.
Qed.

(** C5 (as the code does it): with a matching entry [x], the search never
    selects an entry after [x]: it either panics on an earlier entry or
    selects [x] or an earlier entry; when every earlier entry is inspected
    without panicking and does not match, it selects [x]. *)
Theorem search_keeps_provider_order (activity : BookableActivity)
    (l1 : list GroupActivity) (x : GroupActivity) (l2 : list GroupActivity) :
  activity_matches parse_date activity x = Ok true ->
  ((exists m, find_m (activity_matches parse_date activity) (l1 ++ x :: l2)%list = Panic m) \/
   (exists z, find_m (activity_matches parse_date activity) (l1 ++ x :: l2)%list = Ok (Some z)
              /\ In z (l1 ++ [x])%list)) /\
  (Forall (fun y => activity_matches parse_date activity y = Ok false) l1 ->
   find_m (activity_matches parse_date activity) (l1 ++ x :: l2)%list = Ok (Some x)).
Proof.
  intros Hx. split.
  - induction l1 as [|y r IH]; simpl.
    + rewrite Hx. right. exists x. simpl. auto.
    + destruct (activity_matches parse_date activity y) as [[]|e|m] eqn:Hy; simpl.
      * right. exists y. auto.
      * destruct IH as [IH|(z & Hz & Hin)]; [left; exact IH|right; exists z; auto].
      * exfalso. exact (activity_matches_not_err _ _ _ Hy).
      * left. exists m. reflexivity.
  - intros Hl1. rewrite find_m_skip by exact Hl1. simpl. rewrite Hx. reflexivity.
Qed.

(** C10: the matching closure panics on an entry whose start time does not
    parse, and for an activity whose day is not a weekday name; the search,
    and [find_activity_by_name] with it, then panic as soon as they inspect
    such an entry, instead of returning an [Err]. *)
Theorem matching_panics (activity : BookableActivity) (it : GroupActivity) :
  (parse_date (ga_start_time it) = None \/ parse_weekday (day activity) = None) ->
  (exists m, activity_matches parse_date activity it = Panic m) /\
  (forall l1 l2, Forall (fun y => activity_matches parse_date activity y = Ok false) l1 ->
   exists m, find_m (activity_matches parse_date activity) (l1 ++ it :: l2)%list = Panic m) /\
  (forall env l1 l2, env_listing env = Ok (l1 ++ it :: l2)%list ->
   Forall (fun y => activity_matches parse_date activity y = Ok false) l1 ->
   exists m, find_activity_by_name parse_date activity env = Panic m).
Proof.
  intros Hbad.
  assert (Hp : exists m, activity_matches parse_date activity it = Panic m).
  { unfold activity_matches.
    destruct Hbad as [Hd|Hw].
    - rewrite Hd. simpl. eexists. reflexivity.
    - destruct (parse_date (ga_start_time it)); simpl; rewrite ?Hw; simpl;
        eexists; reflexivity. }
  assert (Hf : forall l1 l2,
    Forall (fun y => activity_matches parse_date activity y = Ok false) l1 ->
    exists m, find_m (activity_matches parse_date activity) (l1 ++ it :: l2)%list = Panic m).
  { intros l1 l2 Hl1. rewrite find_m_skip by exact Hl1. simpl.
    destruct Hp as [m Hm]. rewrite Hm. exists m. reflexivity. }
  split; [exact Hp|split; [exact Hf|]].
  intros env l1 l2 Hl Hl1. destruct (Hf l1 l2 Hl1) as [m Hm].
  exists m. unfold find_activity_by_name. rewrite Hl. simpl. rewrite Hm. reflexivity.
Qed.

(** ** The wait before a check *)

Lemma wait_step_nonneg (d : Z) :
  0 <= d <= chrono_max_nanos -> wait_step d = Ok (d / nanos_per_sec).
Proof.
  intros Hd. unfold wait_step, to_std, unwrap_result.
  destruct (Z.ltb_spec d 0); [lia|]. simpl. f_equal.
  unfold wrap_u64, num_seconds. rewrite Z.quot_div_nonneg by (unfold nanos_per_sec; lia).
  apply Z.mod_small. unfold chrono_max_nanos, nanos_per_sec in *. zdiv.
Qed.

Lemma wait_step_neg (d : Z) : d < 0 -> exists m, wait_step d = Panic m.
Proof.
  intros Hd. unfold wait_step, to_std, unwrap_result.
  destruct (Z.ltb_spec d 0); [|lia]. simpl. eexists. reflexivity.
Qed.

(** C6 (as the code does it): for a delta [d] (in nanoseconds) between
    zero and chrono's maximum, the runner sleeps [d / 1s] whole seconds,
    which is zero for a positive delta under a second; for a negative
    delta, [wait_time.to_std().unwrap()] panics and the runner task ends. *)
Theorem wait_before_check (d : Z) :
  (0 <= d <= chrono_max_nanos -> wait_step d = Ok (d / nanos_per_sec)) /\
  (0 <= d <= chrono_max_nanos -> (0 < d / nanos_per_sec <-> nanos_per_sec <= d)) /\
  (d < 0 -> (exists m, wait_step d = Panic m) /\
   forall a s n env, exists m, runner_iter parse_date (Schedule:=Schedule) a s n (Some d) env = TDead m).
Proof.
  split; [exact (wait_step_nonneg d)|split].
  - intros Hd. unfold nanos_per_sec. split; intros H; zdiv.
  - intros Hd. destruct (wait_step_neg d Hd) as [m Hm]. split; [eauto|].
    intros a s n env. exists m. unfold runner_iter. rewrite Hm. reflexivity.
Qed.

(** ** The runners *)

Lemma dead_task_stuck (m : string) (t : task Schedule) :
  ~ task_step parse_date schedule_from_str get_description_cron (TDead m) t.
Proof. inversion 1. Qed.

(** C7 (as the code does it): when [run_booking] ends in [Err e], the
    [expect] panics: the runner becomes a dead task that has no further
    step (it never waits for the next occurrence); the process keeps
    running and the other tasks are left as they are. *)
Theorem booking_failure_ends_runner (a : BookableActivity) (s : Schedule) (n : nat)
    (d : Z) (env : nat -> AttemptEnv) (e : string) (el : Z)
    (ts : list (task Schedule)) (i : nat) :
  ts !! i = Some (TWaiting a s n) -> 0 <= d ->
  fst (run_booking parse_date a 3 env 0) = Err e ->
  runner_iter parse_date a s n (Some d) env = TDead ("Unable to book!: " ++ e) /\
  proc_step parse_date schedule_from_str get_description_cron
    (PRunning el ts) (PRunning el (<[i := TDead ("Unable to book!: " ++ e)]> ts)) /\
  (forall j, j <> i -> <[i := TDead ("Unable to book!: " ++ e)]> ts !! j = ts !! j) /\
  (forall t, ~ task_step parse_date schedule_from_str get_description_cron
                 (TDead ("Unable to book!: " ++ e)) t).
Proof.
  intros Hi Hd He.
  assert (Hit : runner_iter parse_date a s n (Some d) env = TDead ("Unable to book!: " ++ e)).
  { assert (Hw : wait_step d = Ok (wrap_u64 (num_seconds d))).
    { unfold wait_step, to_std, unwrap_result.
      destruct (Z.ltb_spec d 0); [lia|reflexivity]. }
    unfold runner_iter. rewrite Hw, He. reflexivity. }
  split; [exact Hit|split; [|split]].
  - constructor. exists i, (TWaiting a s n), (TDead ("Unable to book!: " ++ e)).
    split; [exact Hi|split; [|reflexivity]].
    rewrite <- Hit. constructor.
  - intros j Hj. apply list_lookup_insert_ne. congruence.
  - intros t. apply dead_task_stuck.
Qed.

Lemma spawn_runners_lookup (acts : list BookableActivity) (j : nat) (a : BookableActivity) :
  acts !! j = Some a -> spawn_runners (Schedule:=Schedule) acts !! j = Some (TInit a).
Proof.
  unfold spawn_runners. revert j. induction acts as [|b r IH]; intros [|j]; simpl;
    try discriminate; [congruence|apply IH].
Qed.

Lemma sup_star_project (ts ts' : list (task Schedule)) :
  rtc (sup_step parse_date schedule_from_str get_description_cron) ts ts' ->
  forall j t, ts !! j = Some t ->
  exists t', ts' !! j = Some t' /\
    rtc (task_step parse_date schedule_from_str get_description_cron) t t'.
Proof.
  induction 1 as [ts|ts ts2 ts3 Hstep _ IH]; intros j t Hj.
  - exists t. split; [exact Hj|reflexivity].
  - destruct Hstep as (i & t0 & t0' & Hi & Hts & ->).
    destruct (decide (i = j)) as [<-|Hne].
    + rewrite Hj in Hi. injection Hi as <-.
      assert (Hlt : (i < length ts)%nat) by (apply lookup_lt_is_Some; eauto).
      destruct (IH i t0') as (t'' & H1 & H2).
      { apply list_lookup_insert_eq. exact Hlt. }
      exists t''. split; [exact H1|]. eapply rtc_l; [exact Hts|exact H2].
    + destruct (IH j t) as (t'' & H1 & H2).
      { rewrite list_lookup_insert_ne by exact Hne. exact Hj. }
      exists t''. auto.
Qed.

Lemma unparsed_cron_task (a : BookableActivity) (t : task Schedule) :
  schedule_from_str (cron_time a) = None ->
  rtc (task_step parse_date schedule_from_str get_description_cron) (TInit a) t ->
  t = TInit a \/ t = TDead ("unable to parse cron expression " ++ cron_time a).
Proof.
  intros Hc Hs. apply rtc_inv in Hs as [<-|(y & Hy & Hs)]; [left; reflexivity|right].
  inversion Hy; subst. unfold runner_start in Hs. rewrite Hc in Hs.
  apply rtc_inv in Hs as [<-|(z & Hz & _)]; [reflexivity|].
  exfalso. exact (dead_task_stuck _ _ Hz).
Qed.

(** C8: in every state the spawned tasks can reach, the task of each
    activity has only made its own steps; the task of an activity whose
    cron expression does not parse is either not started or dead, having
    scheduled nothing; and any task that can step does so without
    changing the other tasks. *)
Theorem runners_isolated (acts : list BookableActivity) (ts : list (task Schedule)) :
  rtc (sup_step parse_date schedule_from_str get_description_cron) (spawn_runners acts) ts ->
  (forall j a, acts !! j = Some a ->
   exists t, ts !! j = Some t /\
     rtc (task_step parse_date schedule_from_str get_description_cron) (TInit a) t /\
     (schedule_from_str (cron_time a) = None ->
      t = TInit a \/ t = TDead ("unable to parse cron expression " ++ cron_time a))) /\
  (forall j t t', ts !! j = Some t ->
   task_step parse_date schedule_from_str get_description_cron t t' ->
   sup_step parse_date schedule_from_str get_description_cron ts (<[j := t']> ts) /\
   forall k, k <> j -> <[j := t']> ts !! k = ts !! k).
Proof.
  intros Hreach. split.
  - intros j a Ha.
    destruct (sup_star_project _ _ Hreach j (TInit a) (spawn_runners_lookup acts j a Ha))
      as (t & Ht & Hs).
    exists t. repeat split; [exact Ht|exact Hs|].
    intros Hc. exact (unparsed_cron_task a t Hc Hs).
  - intros j t t' Hj Hs. split.
    + exists j, t, t'. auto.
    + intros k Hk. apply list_lookup_insert_ne. congruence.
Qed.

(** ** The process *)

Lemma proc_step_inv (p p' : process Schedule) :
  proc_step parse_date schedule_from_str get_description_cron p p' ->
  proc_inv p -> proc_inv p'.
Proof.
  destruct 1 as [e ts ts' _|e ts dt Hdt]; simpl; [tauto|].
  intros He. destruct (Z.leb_spec main_sleep_secs (e + dt)); simpl; [reflexivity|lia].
Qed.


End Proofs.

(** ** Examples *)

Example weekday_2024_01_08 :
  option_map weekday (iso_parse_date "2024-01-08T18:00:00") = Some Mon.
Proof. reflexivity. Qed.

Example weekday_2000_02_29 :
  option_map weekday (iso_parse_date "2000-02-29T09:30:00") = Some Tue.
Proof. reflexivity. Qed.

Example matches_yoga_flow :
  activity_matches iso_parse_date yoga yoga_flow_mon = Ok true.
Proof. reflexivity. Qed.

Example run_booking_refused :
  run_booking iso_parse_date yoga 3 (fun _ => env_refused) 0 = (Err "Yoga", 3%nat).
Proof. reflexivity. Qed.


(** ** Counterexamples and witnesses *)

(** C1 at three attempts: all refused, then a success on the third. *)
Lemma run_booking_attempts_witness :
  run_booking iso_parse_date yoga 3 (fun _ => env_refused) 0 = (Err "Yoga", 3%nat) /\
  run_booking iso_parse_date yoga 3 env_retry 0 = (Ok tt, 3%nat).
Proof.
  split.
  - apply (proj1 (run_booking_attempts iso_parse_date yoga 3%nat (fun _ => env_refused))).
    intros j _. eexists. reflexivity.
  - apply (proj2 (run_booking_attempts iso_parse_date yoga 3%nat env_retry) 3%nat).
    + lia.
    + intros j Hj. unfold env_retry.
      destruct (Nat.ltb_spec j 2); [|lia]. eexists. reflexivity.
    + reflexivity.
Defined.

(** C2: in scenario B the first search finds no Monday "Yoga", and
    [run_booking] returns [Ok] after one call, not after three. *)
Lemma scenario_b_stops_after_first_search :
  run_booking iso_parse_date yoga 3 env_scenario_b 0 = (Ok tt, 1%nat) /\
  run_booking iso_parse_date yoga 3 env_scenario_b 0 <> (Ok tt, 3%nat).
Proof. split; [reflexivity|discriminate]. Defined.

Lemma run_booking_no_match_stops_witness :
  env_listing (env_scenario_b 0) = Ok [yoga_tue] /\
  find_m (activity_matches iso_parse_date yoga) [yoga_tue] = Ok None /\
  run_booking iso_parse_date yoga 3 env_scenario_b 0 = (Ok tt, 1%nat).
Proof.
  split; [reflexivity|split; [reflexivity|]].
  exact (proj2 (run_booking_no_match_stops iso_parse_date yoga 2%nat env_scenario_b 0%nat
                  [yoga_tue] eq_refl eq_refl)).
Defined.

(** C3 at a 400 answer "Already booked". *)
Lemma booking_status_classified_witness :
  find_activity_by_name iso_parse_date yoga
      (env_of [yoga_flow_mon] (Ok already_booked)) =
    Err "code 400: Already booked".
Proof.
  exact (proj1 (proj2 (booking_status_classified iso_parse_date yoga
    (env_of [yoga_flow_mon] (Ok already_booked)) [yoga_flow_mon] yoga_flow_mon
    already_booked "Already booked" eq_refl eq_refl eq_refl eq_refl))
    ltac:(discriminate)).
Defined.

(** C4 on a listing whose first entry is on the wrong day. *)
Lemma selected_entry_matches_all_witness :
  find_m (activity_matches iso_parse_date yoga) [yoga_tue; yoga_flow_mon] =
    Ok (Some yoga_flow_mon) /\
  ga_status yoga_flow_mon = "Bookable".
Proof.
  split; [reflexivity|].
  exact (proj2 (proj2 (proj2 (selected_entry_matches_all iso_parse_date yoga
    [yoga_tue; yoga_flow_mon] yoga_flow_mon eq_refl)))).
Defined.

(** C5: two matching Monday entries, after an entry whose start time does
    not parse: the search panics and selects neither. *)
Lemma order_claim_fails_on_garbled_entry :
  activity_matches iso_parse_date yoga yoga_flow_mon = Ok true /\
  activity_matches iso_parse_date yoga yoga_flow_mon_late = Ok true /\
  find_m (activity_matches iso_parse_date yoga)
    [garbled_slot; yoga_flow_mon; yoga_flow_mon_late] =
    Panic "called `Option::unwrap()` on a `None` value".
Proof. split; [reflexivity|split; reflexivity]. Defined.

Lemma search_keeps_provider_order_witness :
  activity_matches iso_parse_date yoga yoga_flow_mon = Ok true /\
  find_m (activity_matches iso_parse_date yoga)
    ([yoga_tue] ++ yoga_flow_mon :: [yoga_flow_mon_late])%list = Ok (Some yoga_flow_mon).
Proof.
  split; [reflexivity|].
  apply (proj2 (search_keeps_provider_order iso_parse_date yoga [yoga_tue]
    yoga_flow_mon [yoga_flow_mon_late] eq_refl)).
  constructor; [reflexivity|constructor].
Defined.

(** C6: half a second ahead the runner sleeps zero seconds; one second
    behind, it panics (the [as u64] cast would have given [2^64 - 1]). *)
Lemma wait_claim_fails :
  wait_step 500000000 = Ok 0 /\
  wait_step (-1000000000) =
    Panic "called `Result::unwrap()` on an `Err` value: OutOfRangeError" /\
  wrap_u64 (num_seconds (-1000000000)) = 2 ^ 64 - 1.
Proof. split; [reflexivity|split; reflexivity]. Defined.

Lemma wait_before_check_witness :
  wait_step 1500000000 = Ok 1 /\
  (exists m, runner_iter iso_parse_date (Schedule:=unit) yoga tt 0 (Some (-1))
               (fun _ => env_refused) = TDead m).
Proof.
  split.
  - apply (proj1 (wait_before_check iso_parse_date unit 1500000000)).
    unfold chrono_max_nanos. lia.
  - apply (proj2 (proj2 (wait_before_check iso_parse_date unit (-1))) ltac:(lia)).
Defined.

(** C7: after three refused attempts the runner is dead, and a dead task
    has no step: it never waits for the next occurrence. *)
Lemma exhausted_runner_stops :
  runner_iter iso_parse_date yoga tt 0 (Some 0) (fun _ => env_refused) =
    TDead "Unable to book!: Yoga" /\
  (forall t, ~ task_step iso_parse_date table_cron table_description
                 (TDead "Unable to book!: Yoga") t).
Proof. split; [reflexivity|intros t H; inversion H]. Defined.

Lemma booking_failure_ends_runner_witness :
  proc_step iso_parse_date table_cron table_description
    (PRunning 0 [TWaiting yoga tt 0; TWaiting yoga tt 4])
    (PRunning 0 [TDead "Unable to book!: Yoga"; TWaiting yoga tt 4]).
Proof.
  exact (proj1 (proj2 (booking_failure_ends_runner iso_parse_date unit table_cron
    table_description yoga tt 0%nat 0 (fun _ => env_refused) "Yoga" 0
    [TWaiting yoga tt 0; TWaiting yoga tt 4] 0%nat eq_refl ltac:(lia) eq_refl))).
Defined.

(** C8 with a valid and an unparsable cron expression, after both tasks
    have made their first step. *)
Lemma runners_isolated_witness :
  exists t, [TWaiting yoga tt 0;
             TDead ("unable to parse cron expression " ++ "bad")] !! 1%nat = Some t /\
    (t = TInit bad_cron_yoga \/ t = TDead ("unable to parse cron expression " ++ "bad")).
Proof.
  assert (Hr : rtc (sup_step iso_parse_date table_cron table_description)
    (spawn_runners [yoga; bad_cron_yoga])
    [TWaiting yoga tt 0; TDead ("unable to parse cron expression " ++ "bad")]).
  { eapply rtc_l.
    { exists 0%nat, (TInit yoga), (TWaiting yoga tt 0).
      split; [reflexivity|split; [exact (step_start _ _ _ _ yoga)|reflexivity]]. }
    eapply rtc_l; [|apply rtc_refl].
    exists 1%nat, (TInit bad_cron_yoga), (TDead ("unable to parse cron expression " ++ "bad")).
    split; [reflexivity|split; [exact (step_start _ _ _ _ bad_cron_yoga)|reflexivity]]. }
  destruct (proj1 (runners_isolated iso_parse_date unit table_cron table_description
    [yoga; bad_cron_yoga] _ Hr) 1%nat bad_cron_yoga eq_refl) as (t & Ht & _ & Hc).
  exists t. split; [exact Ht|]. apply Hc. reflexivity.
Defined.



(** C10 on a listing whose first entry has a garbled start time. *)
Lemma matching_panics_witness :
  exists m, find_activity_by_name iso_parse_date yoga
    (env_of [garbled_slot; yoga_flow_mon] ok_response) = Panic m.
Proof.
  exact (proj2 (proj2 (matching_panics iso_parse_date yoga garbled_slot
    (or_introl eq_refl))) (env_of [garbled_slot; yoga_flow_mon] ok_response)
    [] [yoga_flow_mon] eq_refl ltac:(constructor)).
Defined.

(** * Further properties of main.rs *)

Section Extra.

Variable parse_date : string -> option NaiveDateTime.
Variable Schedule : Type.
Variable schedule_from_str : string -> option Schedule.
Variable get_description_cron : string -> option string.

(** ** The retry loop *)

(** Whatever the network answers, [run_booking] makes at most
    [num_retries] calls; it returns [Ok], a panic, or the error holding
    only the activity's name, and the latter only after all the calls:
    the error of the last call is never returned. *)
Theorem run_booking_outcomes (activity : BookableActivity) (N : nat)
    (env : nat -> AttemptEnv) (k : nat) :
  let '(r, c) := run_booking parse_date activity N env k in
  (c <= N)%nat /\
  (r = Ok tt \/ (r = Err (name activity) /\ c = N) \/ exists m, r = Panic m).
Proof.
  revert k. induction N as [|N IH]; intros k; simpl.
  - split; [lia|right; left; auto].
  - destruct (find_activity_by_name parse_date activity (env k)) as [u|e|m].
    + split; [lia|left; reflexivity].
    + specialize (IH (S k)). destruct (run_booking parse_date activity N env (S k)) as [r c].
      destruct IH as [Hc [H|[[H1 H2]|H]]]; split; try lia; auto.
    + split; [lia|right; right; eauto].
Qed.

(** A panic during a call is not retried: when the calls before the
    [j]-th fail and the [j]-th panics, [run_booking] panics with the same
    message after [j + 1] calls. *)
Theorem run_booking_panic_stops (activity : BookableActivity) (N j : nat)
    (env : nat -> AttemptEnv) (m : string) :
  (j < N)%nat ->
  (forall i, (i < j)%nat -> exists e,
      find_activity_by_name parse_date activity (env i) = Err e) ->
  find_activity_by_name parse_date activity (env j) = Panic m ->
  run_booking parse_date activity N env 0 = (Panic m, S j).
Proof.
  intros Hj. change (env j) with (env (0 + j)%nat). change (forall i, (i < j)%nat ->
    exists e, find_activity_by_name parse_date activity (env i) = Err e) with
    (forall i, (i < j)%nat ->
    exists e, find_activity_by_name parse_date activity (env (0 + i)%nat) = Err e).
  generalize 0%nat as k. revert N Hj. induction j as [|j IH]; intros N Hj k Hfail Hp.
  - destruct N as [|N]; [lia|]. simpl. rewrite Nat.add_0_r in Hp. now rewrite Hp.
  - destruct N as [|N]; [lia|]. simpl.
    destruct (Hfail O ltac:(lia)) as [e He]. rewrite Nat.add_0_r in He. rewrite He.
    rewrite (IH N ltac:(lia) (S k)); [reflexivity| |].
    + intros i Hi. destruct (Hfail (S i) ltac:(lia)) as [e' He'].
      exists e'. rewrite <- He'. do 2 f_equal. lia.
    + rewrite <- Hp. do 2 f_equal. lia.
Qed.

(** ** Errors of one call *)

(** A call of [find_activity_by_name] returns unchanged the error of the
    listing request, and, once a slot is selected, the transport error of
    the booking request and the error of reading its body, the latter
    even when the status is 200. *)
Theorem find_activity_errors_propagate (activity : BookableActivity) (env : AttemptEnv)
    (e : string) :
  (env_listing env = Err e -> find_activity_by_name parse_date activity env = Err e) /\
  (forall l it, env_listing env = Ok l ->
   find_m (activity_matches parse_date activity) l = Ok (Some it) ->
   (env_book env (wrap_u32 (ga_id it)) (user_id activity) = Err e ->
    find_activity_by_name parse_date activity env = Err e) /\
   (forall status, env_book env (wrap_u32 (ga_id it)) (user_id activity) =
      Ok {| resp_status := status; resp_text := Err e |} ->
    find_activity_by_name parse_date activity env = Err e)).
Proof.
  unfold find_activity_by_name. split.
  - intros H. rewrite H. reflexivity.
  - intros l it Hl Hf. rewrite Hl. simpl. rewrite Hf. simpl.
    split; intros; rewrite H; reflexivity.
Qed.

(** ** Matching *)

Lemma contains_empty (s : string) : contains s "" = true.
Proof. destruct s; reflexivity. Qed.

(** An activity configured with an empty name matches every entry on its
    weekday whose status is "Bookable", whatever the entry's name. *)
Theorem empty_name_matches_any (activity : BookableActivity) (it : GroupActivity)
    (d : NaiveDateTime) (w : Weekday) :
  name activity = "" ->
  parse_date (ga_start_time it) = Some d ->
  parse_weekday (day activity) = Some w ->
  activity_matches parse_date activity it =
    Ok (weekday_eqb (weekday d) w && String.eqb (ga_status it) "Bookable").
Proof.
  intros Hn Hd Hw. unfold activity_matches. rewrite Hn, Hd, Hw. simpl.
  rewrite contains_empty. reflexivity.
Qed.

(** ** The wait *)

(** For a delta between zero and chrono's maximum the runner never sleeps
    past the wake instant and wakes less than a second before it. *)
Theorem wait_step_within_a_second (d : Z) :
  0 <= d <= chrono_max_nanos ->
  exists w, wait_step d = Ok w /\ w * nanos_per_sec <= d < (w + 1) * nanos_per_sec.
Proof.
  intros Hd. exists (d / nanos_per_sec). split.
  - unfold wait_step, to_std, unwrap_result.
    destruct (Z.ltb_spec d 0); [lia|]. simpl. f_equal.
    unfold wrap_u64, num_seconds. rewrite Z.quot_div_nonneg by (unfold nanos_per_sec; lia).
    apply Z.mod_small. unfold chrono_max_nanos, nanos_per_sec in *. zdiv.
  - unfold nanos_per_sec. zdiv.
Qed.

End Extra.

(** ** Decimal digits *)

Lemma digits_val_digit (n : Z) (r : string) (v : Z) :
  0 <= n <= 9 -> digits_val (String (digit n) r) v = digits_val r (v * 10 + n).
Proof.
  intros Hn. pose proof (digit_nat n Hn) as Hd.
  remember (digit n) as c eqn:Hc. clear Hc. cbn [digits_val]. rewrite Hd.
  assert (Hb : ((48 <=? 48 + Z.to_nat n) && (48 + Z.to_nat n <=? 57))%nat = true)
    by (apply andb_true_intro; split; apply Nat.leb_le; lia).
  rewrite Hb. f_equal. rewrite Nat.add_comm, Nat.add_sub, Z2Nat.id by lia. reflexivity.
Qed.

Lemma dec_aux_val (f : nat) (n : Z) (acc : string) :
  (1 <= f)%nat -> 0 <= n < 10 ^ Z.of_nat f ->
  exists k, 0 <= k /\ forall v, digits_val (dec_aux f n acc) v = digits_val acc (v * 10 ^ k + n).
Proof.
  revert n acc. induction f as [|f IH]; intros n acc Hf Hn; [lia|].
  simpl. destruct (Z.ltb_spec n 10) as [Hlt|Hge].
  - exists 1. split; [lia|]. intros v. rewrite digits_val_digit by lia. f_equal; lia.
  - destruct f as [|f'].
    { simpl in Hn. lia. }
    destruct (IH (n / 10) (String (digit (n mod 10)) acc)) as (k & Hk & H).
    + lia.
    + rewrite Nat2Z.inj_succ, Z.pow_succ_r in Hn by lia. zdiv.
    + exists (k + 1). split; [lia|]. intros v. rewrite H, digits_val_digit by zdiv.
      f_equal. rewrite Z.pow_add_r by lia. zdiv.
Qed.

Lemma u32_to_string_val (n : Z) :
  0 <= n < 2 ^ 32 -> digits_val (u32_to_string n) 0 = Some n.
Proof.
  intros Hn. destruct (dec_aux_val 10 n "") as (k & _ & H); [lia|simpl; lia|].
  unfold u32_to_string. rewrite H. reflexivity.
Qed.

(** The form body of [book_activity] is
    "ActivityId=<a>&UserId=<u>&QueueType=ordinary", and the decimal fields
    read back as the activity id and the user id it was given. *)
Theorem book_activity_body_roundtrip (a u : Z) :
  0 <= a < 2 ^ 32 -> 0 <= u < 2 ^ 32 ->
  exists sa su,
    req_body (book_activity a u) =
      "ActivityId=" ++ sa ++ "&UserId=" ++ su ++ "&QueueType=ordinary" /\
    digits_val sa 0 = Some a /\ digits_val su 0 = Some u.
Proof.
  intros Ha Hu. exists (u32_to_string a), (u32_to_string u).
  split; [reflexivity|split; apply u32_to_string_val; assumption].
Qed.

(** The status text in the error of a non-200 booking reads back as the
    status code, for every code from 100 to 999. *)
Theorem status_as_str_roundtrip (s : Z) :
  100 <= s <= 999 -> digits_val (status_as_str s) 0 = Some s.
Proof.
  intros Hs. unfold status_as_str.
  rewrite !digits_val_digit by zdiv. simpl. f_equal. zdiv.
Qed.

(** ** The search window *)

(** The first date of the search is the UTC date of now, except from
    22:00 UTC on, where it is the next day (UTC+2); the second date is
    always exactly seven days later. *)
Theorem search_window_dates (now : Z) :
  nw_day now = now / secs_per_day + (if 79200 <=? now mod secs_per_day then 1 else 0) /\
  get_nw_date (now + one_week) = format_ymd (civil_from_days (nw_day now + 7)).
Proof.
  split.
  - unfold nw_day, secs_per_day. destruct (Z.leb_spec 79200 (now mod 86400)); zdiv.
  - unfold get_nw_date. do 2 f_equal. unfold nw_day, one_week, secs_per_day. zdiv.
Qed.


(** ** Witnesses of the further properties *)

Definition env_then_garbled (k : nat) : AttemptEnv :=
  if (k <? 1)%nat then env_refused else env_of [garbled_slot] ok_response.

Lemma run_booking_panic_stops_witness :
  run_booking iso_parse_date yoga 3 env_then_garbled 0 =
    (Panic "called `Option::unwrap()` on a `None` value", 2%nat).
Proof.
  apply (run_booking_panic_stops iso_parse_date yoga 3%nat 1%nat env_then_garbled).
  - lia.
  - intros i Hi. unfold env_then_garbled.
    destruct (Nat.ltb_spec i 1); [|lia]. eexists. reflexivity.
  - reflexivity.
Defined.

Lemma find_activity_errors_propagate_witness :
  find_activity_by_name iso_parse_date yoga env_refused =
    Err "error sending request: connection refused" /\
  find_activity_by_name iso_parse_date yoga
    (env_of [yoga_flow_mon] (Ok {| resp_status := 200; resp_text := Err "decode" |})) =
    Err "decode".
Proof.
  split.
  - apply (proj1 (find_activity_errors_propagate iso_parse_date yoga env_refused
      "error sending request: connection refused")). reflexivity.
  - destruct (proj2 (find_activity_errors_propagate iso_parse_date yoga
      (env_of [yoga_flow_mon] (Ok {| resp_status := 200; resp_text := Err "decode" |}))
      "decode") [yoga_flow_mon] yoga_flow_mon eq_refl eq_refl) as [_ H].
    apply (H 200). reflexivity.
Defined.

Definition any_yoga : BookableActivity := {|
  name := ""; id := ""; cron_time := "0 0 8 * * Mon";
  user_id := 42; day := "mon"; user_name := "user"
|}.

Lemma empty_name_matches_any_witness :
  activity_matches iso_parse_date any_yoga
    (slot 3 "Spinning" "Bookable" "2024-01-08T18:00:00") = Ok true.
Proof.
  exact (empty_name_matches_any iso_parse_date any_yoga
    (slot 3 "Spinning" "Bookable" "2024-01-08T18:00:00")
    {| dt_year := 2024; dt_month := 1; dt_day := 8;
       dt_hour := 18; dt_minute := 0; dt_second := 0 |} Mon
    eq_refl eq_refl eq_refl).
Defined.

Lemma wait_step_within_a_second_witness :
  exists w, wait_step 2999999999 = Ok w /\
    w * nanos_per_sec <= 2999999999 < (w + 1) * nanos_per_sec.
Proof.
  apply wait_step_within_a_second. unfold chrono_max_nanos. lia.
Defined.

Lemma book_activity_body_roundtrip_witness :
  exists sa su,
    req_body (book_activity 4294967295 42) =
      "ActivityId=" ++ sa ++ "&UserId=" ++ su ++ "&QueueType=ordinary" /\
    digits_val sa 0 = Some 4294967295 /\ digits_val su 0 = Some 42.
Proof. apply (book_activity_body_roundtrip 4294967295 42); lia. Defined.

Lemma status_as_str_roundtrip_witness :
  digits_val (status_as_str 404) 0 = Some 404.
Proof. apply (status_as_str_roundtrip 404). lia. Defined.
